(** * sticho: the authentication gate of the service

    A shallow embedding of [service/cfg.py], [service/middleware/auth.py] and
    [service/__init__.py] (with the wiring of [service/run.py] that the
    statements need), and the properties of the gate proved on it.

    Conventions of the embedding.
    - A Python [str] is a [string]; header and cookie values reach the code
      decoded as latin-1, so one [ascii] is one code point of the value.
    - [Optional[str]] is [option string]; Python truthiness ([not x]) is
      written out by [truthy].
    - A [dict] with string keys is a [gmap string _].
    - The identity provider SDK ([stytch.Client]) is an external collaborator:
      its three entry points are the variables of [Section Gate].  A call
      either raises or returns, and every call is recorded in a trace, so that
      "which token was validated" and "no provider call was made" are
      statements about the trace.
    - [print] calls are not modelled. *)

From Stdlib Require Import String Ascii List ZArith.
From stdpp Require Import gmap strings.
Import ListNotations.

Local Open Scope string_scope.
Local Open Scope Z_scope.

(** ** Python values and helpers *)

Inductive pyval : Type :=
| VNone
| VStr (s : string)
| VBool (b : bool).

(** [bool(s)] for a [str]: the empty string is falsy. *)
Definition str_truthy (s : string) : bool :=
  match s with
  | EmptyString => false
  | String _ _ => true
  end.

(** [bool(x)] for an [Optional[str]]: [None] and [""] are falsy. *)
Definition truthy (x : option string) : bool :=
  match x with
  | None => false
  | Some s => str_truthy s
  end.

(** [s.startswith(p)]. *)
Definition startswith (s p : string) : bool := String.prefix p s.

(** [s[n:]]. *)
Fixpoint slice_from (n : nat) (s : string) : string :=
  match n, s with
  | O, _ => s
  | S _, EmptyString => EmptyString
  | S n', String _ s' => slice_from n' s'
  end.

(** [str.isspace] on the code points 0..255. *)
Definition isspace (a : ascii) : bool :=
  let n := nat_of_ascii a in
  ((9 <=? n)%nat && (n <=? 13)%nat)
  || ((28 <=? n)%nat && (n <=? 32)%nat)
  || (n =? 133)%nat || (n =? 160)%nat.

Fixpoint lstrip_chars (l : list ascii) : list ascii :=
  match l with
  | [] => []
  | a :: l' => if isspace a then lstrip_chars l' else l
  end.

(** [s.strip()]. *)
Definition strip (s : string) : string :=
  string_of_list_ascii
    (rev (lstrip_chars (rev (lstrip_chars (list_ascii_of_string s))))).

(** ** Exceptions, provider calls and the effect monad *)

(** An instance of a subclass of [Exception]: its class name and [str(e)]. *)
Record exn : Type := Exn { exn_class : string; exn_str : string }.

(** [Exception(msg)]. *)
Definition Exception_ (msg : string) : exn := Exn "Exception" msg.

(** What [None.strip()] raises. *)
Definition AttributeError_strip : exn :=
  Exn "AttributeError" "'NoneType' object has no attribute 'strip'".

(** [fastapi.HTTPException(status_code, detail)]. *)
Record HTTPException : Type :=
  HTTPExc { exc_status_code : Z; exc_detail : string }.

(** Calls into [stytch_client]. *)
Inductive event : Type :=
| authenticate_jwt_local_call (session_jwt : string)
| authenticate_call (session_jwt : string)
| oauth_authenticate_call (token : string).

(** A computation: the provider calls it made, and an exception or a value. *)
Definition M (E A : Type) : Type := (list event * (E + A))%type.

Definition ret {E A : Type} (a : A) : M E A := ([], inr a).

Definition raise {E A : Type} (e : E) : M E A := ([], inl e).

Definition bind {E A B : Type} (m : M E A) (k : A -> M E B) : M E B :=
  match m with
  | (t, inl e) => (t, inl e)
  | (t, inr a) => let '(t', r) := k a in ((t ++ t')%list, r)
  end.

(** [try: m  except Exception as e: h e]. *)
Definition try_except {E E' A : Type} (m : M E A) (h : E -> M E' A) : M E' A :=
  match m with
  | (t, inr a) => (t, inr a)
  | (t, inl e) => let '(t', r) := h e in ((t ++ t')%list, r)
  end.

(** One provider call with outcome [r]. *)
Definition call {A : Type} (ev : event) (r : exn + A) : M exn A := ([ev], r).

Definition trace {E A : Type} (m : M E A) : list event := fst m.
Definition outcome {E A : Type} (m : M E A) : E + A := snd m.

Notation "'let*' x ':=' m 'in' k" := (bind m (fun x => k))
  (at level 10, x name, m at level 100, k at level 200).

(** ** service/cfg.py *)

Record Config : Type := {
  port : Z;
  env : string;
  enforce_iam : bool;
  secret : string;
  project_id : string;
  workspace_id : string;
  public_token : string;
  redirect_url : string;
  sbs_url : string;
  sbs_key : string
}.

Definition cfg : Config := {|
  port := 36016;
  env := "test";
  enforce_iam := true;
  secret := "secret-test-";
  project_id := "project-test-aaffe74a-8bd3-4bfd-bf42-a6efb8755d32";
  workspace_id := "organization-prod-7a9";
  public_token := "public-token-test-da0";
  redirect_url := "http://localhost:36016/auth/callback";
  sbs_url := "https://supabase.co";
  sbs_key := "supabase_key"
|}.

(** ** Requests and responses *)

(** [request.state]: an attribute that was never set is [None]. *)
Record State : Type := {
  st_session : option (gmap string pyval);
  st_authenticated : option bool;
  st_user_id : option pyval
}.

Definition empty_state : State :=
  {| st_session := None; st_authenticated := None; st_user_id := None |}.

Record Request : Type := {
  url_path : string;
  cookies : gmap string string;
  headers : gmap string string;
  query_params : gmap string string;
  state : State
}.

Definition with_state (request : Request) (s : State) : Request :=
  {| url_path := url_path request;
     cookies := cookies request;
     headers := headers request;
     query_params := query_params request;
     state := s |}.

Record SetCookie : Type := {
  key : string;
  value : string;
  httponly : bool;
  samesite : string
}.

Inductive Body : Type :=
| JSONBody (content : gmap string pyval)
| Location (url : string)
| Other (text : string).

Record Response : Type := {
  status_code : Z;
  body : Body;
  set_cookies : list SetCookie
}.

Definition JSONResponse (status : Z) (content : gmap string pyval) : Response :=
  {| status_code := status; body := JSONBody content; set_cookies := [] |}.

(** [RedirectResponse(url=...)]; 307 is the framework's default status. *)
Definition RedirectResponse (url : string) : Response :=
  {| status_code := 307; body := Location url; set_cookies := [] |}.

Definition set_cookie (response : Response) (k v : string) (ho : bool)
    (ss : string) : Response :=
  {| status_code := status_code response;
     body := body response;
     set_cookies := (set_cookies response ++
       [{| key := k; value := v; httponly := ho; samesite := ss |}])%list |}.

(** ** service/middleware/auth.py *)

Definition PUBLIC_PATHS : list string :=
  [ "/"; "/auth/"; "/auth/sso/google"; "/auth/callback"; "/docs"; "/redoc" ].

(** [any(request.url.path.startswith(path) for path in self.public_paths)]. *)
Definition is_public (path : string) : bool :=
  existsb (fun p => startswith path p) PUBLIC_PATHS.

(** What the provider returns for a session: the record of the collaborator
    contract (user id, session id). *)
Record Session : Type := { user_id : string; session_id : string }.

(** What the provider returns for an OAuth exchange. *)
Record OAuthResult : Type := { session_jwt : string }.

(** The dict that [validate_session] returns. *)
Definition session_dict (uid sid : string) : gmap string pyval :=
  <["user_id" := VStr uid]>
    (<["session_id" := VStr sid]> {["authenticated" := VBool true]}).

(** [d.get(k)]. *)
Definition dict_get (d : gmap string pyval) (k : string) : pyval :=
  match d !! k with
  | Some v => v
  | None => VNone
  end.

(** The three assignments to [request.state] after a successful validation. *)
Definition store_session (request : Request) (session : gmap string pyval)
    : Request :=
  with_state request
    {| st_session := Some session;
       st_authenticated := Some true;
       st_user_id := Some (dict_get session "user_id") |}.

(** [request.state.authenticated = True]. *)
Definition mark_authenticated (request : Request) : Request :=
  with_state request
    {| st_session := st_session (state request);
       st_authenticated := Some true;
       st_user_id := st_user_id (state request) |}.

(** ** service/__init__.py

    The module keeps one global, [_SBS_CNX].  [acreate_client] is the
    external constructor of the data-store client: its outcome may differ
    from call to call, so it is given the number of calls made before.  The
    global is threaded through as a state, together with the arguments of the
    calls to [acreate_client] made so far.  Calls are sequential: one starts
    when the previous one has completed. *)

Definition _URL : string := sbs_url cfg.
Definition _KEY : string := sbs_key cfg.

Record Supabase (Client : Type) : Type := {
  _SBS_CNX : option Client;
  created : list (string * string)
}.

Arguments _SBS_CNX {Client} _.
Arguments created {Client} _.

(** The module as imported: [_SBS_CNX = None]. *)
Definition supabase_init {Client : Type} : Supabase Client :=
  {| _SBS_CNX := None; created := [] |}.

Definition init_supabase {Client : Type}
    (acreate_client : nat -> string -> string -> exn + Client)
    (s : Supabase Client) : Supabase Client * (exn + unit) :=
  match _SBS_CNX s with
  | None =>
      let calls := (created s ++ [(_URL, _KEY)])%list in
      match acreate_client (List.length (created s)) _URL _KEY with
      | inr client => ({| _SBS_CNX := Some client; created := calls |}, inr tt)
      | inl e => ({| _SBS_CNX := None; created := calls |}, inl e)
      end
  | Some _ => (s, inr tt)
  end.

(** A client object is truthy, so [not _SBS_CNX] holds exactly when the
    global is [None]. *)
Definition cnx_sbs {Client : Type} (s : Supabase Client) : exn + Client :=
  match _SBS_CNX s with
  | None => inl (Exception_ "Supabase not initialised")
  | Some client => inr client
  end.

(** [n] calls of [init_supabase] in a row, exceptions ignored by the
    caller. *)
Fixpoint init_supabase_times {Client : Type}
    (acreate_client : nat -> string -> string -> exn + Client)
    (n : nat) (s : Supabase Client) : Supabase Client :=
  match n with
  | O => s
  | S n' =>
      init_supabase_times acreate_client n'
        (fst (init_supabase acreate_client s))
  end.

(** What holds of the module state after [n] sequential calls of
    [init_supabase] from the state as imported. *)
Definition supabase_inv {Client : Type}
    (acreate_client : nat -> string -> string -> exn + Client)
    (n : nat) (s : Supabase Client) : Prop :=
  Forall (fun call => call = (_URL, _KEY)) (created s)
  /\ match _SBS_CNX s with
     | Some client =>
         cnx_sbs s = inr client
         /\ exists k : nat,
              (k < n)%nat
              /\ acreate_client k _URL _KEY = inr client
              /\ (forall j : nat,
                    (j < k)%nat ->
                    exists e, acreate_client j _URL _KEY = inl e)
              /\ List.length (created s) = S k
     | None =>
         cnx_sbs s = inl (Exception_ "Supabase not initialised")
         /\ List.length (created s) = n
         /\ forall j : nat,
              (j < n)%nat -> exists e, acreate_client j _URL _KEY = inl e
     end.

(** ** Sample collaborators and requests

    Concrete providers, handlers and requests on which the statements below
    are instantiated. *)

Definition sample_session : Session :=
  {| user_id := "user-1"; session_id := "sess-1" |}.

Definition sample_error : exn := Exn "StytchError" "session not found".

Definition local_ok : string -> exn + option Session :=
  fun _ => inr (Some sample_session).

Definition local_none : string -> exn + option Session :=
  fun _ => inr None.

Definition local_raises : string -> exn + option Session :=
  fun _ => inl sample_error.

Definition remote_ok : string -> exn + Session :=
  fun _ => inr {| user_id := "user-2"; session_id := "sess-2" |}.

Definition remote_raises : string -> exn + Session :=
  fun _ => inl sample_error.

Definition oauth_ok : string -> exn + OAuthResult :=
  fun _ => inr {| session_jwt := "jwt-1" |}.

Definition oauth_raises : string -> exn + OAuthResult :=
  fun _ => inl sample_error.

Definition ok_response : Response :=
  {| status_code := 200; body := Other "ok"; set_cookies := [] |}.

(** A downstream handler that answers 200. *)
Definition next_ok (request : Request) : M exn Response := ret ok_response.

(** A downstream handler that raises. *)
Definition next_raises (request : Request) : M exn Response :=
  raise sample_error.

(** A downstream handler that reports whether [request.state.session] is
    set. *)
Definition next_probe (request : Request) : M exn Response :=
  ret {| status_code := 200;
         body := Other (match st_session (state request) with
                        | Some _ => "session"
                        | None => "no session"
                        end);
         set_cookies := [] |}.

Definition mk_request (path : string) (cookie authorization token : option string)
    : Request :=
  {| url_path := path;
     cookies := match cookie with
                | Some v => {["session" := v]}
                | None => ∅
                end;
     headers := match authorization with
                | Some v => {["Authorization" := v]}
                | None => ∅
                end;
     query_params := match token with
                     | Some v => {["token" := v]}
                     | None => ∅
                     end;
     state := empty_state |}.

Definition cfg_off : Config := {|
  port := port cfg;
  env := env cfg;
  enforce_iam := false;
  secret := secret cfg;
  project_id := project_id cfg;
  workspace_id := workspace_id cfg;
  public_token := public_token cfg;
  redirect_url := redirect_url cfg;
  sbs_url := sbs_url cfg;
  sbs_key := sbs_key cfg
|}.

(** The framework's default rendering of an [HTTPException]. *)
Definition detail_handler (exc : HTTPException) : Response :=
  JSONResponse (exc_status_code exc) {["detail" := VStr (exc_detail exc)]}.

(** A data-store constructor whose first call fails and whose later calls
    return the number of the call. *)
Definition create_second_time (n : nat) (url k : string) : exn + nat :=
  match n with
  | O => inl sample_error
  | S _ => inr n
  end.

(** The cookies a client holds after it has stored those of a response. *)
Definition cookie_jar (response : Response) : gmap string string :=
  list_to_map (map (fun ck => (key ck, value ck)) (set_cookies response)).

(** The next request of that client to [path]. *)
Definition follow_up (path : string) (response : Response) : Request :=
  {| url_path := path;
     cookies := cookie_jar response;
     headers := ∅;
     query_params := ∅;
     state := empty_state |}.

Section Gate.

(** [stytch_client.sessions.authenticate_jwt_local]: raises, or returns a
    session or a falsy result. *)
Variable authenticate_jwt_local : string -> exn + option Session.

(** [stytch_client.sessions.authenticate]. *)
Variable authenticate : string -> exn + Session.

(** [stytch_client.oauth.authenticate]. *)
Variable oauth_authenticate : string -> exn + OAuthResult.

Definition validate_session (session_token : string)
    : M exn (gmap string pyval) :=
  if negb (str_truthy session_token) then
    raise (Exception_ "No session token provided")
  else
    try_except
      (let* session := call (authenticate_jwt_local_call session_token)
                       (authenticate_jwt_local session_token) in
       match session with
       | None =>
           let* result := call (authenticate_call session_token)
                          (authenticate session_token) in
           ret (session_dict (user_id result) (session_id result))
       | Some session =>
           ret (session_dict (user_id session) (session_id session))
       end)
      (fun e => raise (Exception_ ("Invalid session: " +:+ exn_str e))).

(** Lines 52-56 and 90-94 of [dispatch]: the cookie, else the remainder of
    a [Bearer ] header. *)
Definition dispatch_token (request : Request) : option string :=
  let session_token := cookies request !! "session" in
  if negb (truthy session_token) then
    match headers request !! "Authorization" with
    | Some auth_header =>
        if startswith auth_header "Bearer " then
          Some (slice_from 7 auth_header)
        else session_token
    | None => session_token
    end
  else session_token.

(** [session_token.strip()] on an [Optional[str]]. *)
Definition strip_opt (session_token : option string) : M exn string :=
  match session_token with
  | None => raise AttributeError_strip
  | Some s => ret (strip s)
  end.

Definition invalid_session_response (e : exn) : Response :=
  JSONResponse 401 {["error" := VStr ("Invalid session: " +:+ exn_str e)]}.

Section Dispatch.

Variable c : Config.
Variable call_next : Request -> M exn Response.

(** Lines 68-86 and 103-116: validate, store, continue; any exception
    becomes the 401 response. *)
Definition validate_and_continue (request : Request)
    (session_token : string) : M exn Response :=
  try_except
    (let* session := validate_session session_token in
     call_next (store_session request session))
    (fun e => ret (invalid_session_response e)).

(** Lines 49-86: the branch for paths under [/gql]. *)
Definition dispatch_gql (request : Request) : M exn Response :=
  let* session_token := strip_opt (dispatch_token request) in
  if negb (str_truthy session_token) then
    ret (JSONResponse 401
           {["error" := VStr "Authentication required for GraphQL endpoint"]})
  else validate_and_continue request session_token.

(** Lines 88-116: every other path. *)
Definition dispatch_other (request : Request) : M exn Response :=
  match dispatch_token request with
  | Some session_token =>
      if negb (str_truthy session_token) then
        ret (JSONResponse 401 {["error" := VStr "Authentication required"]})
      else validate_and_continue request session_token
  | None =>
      ret (JSONResponse 401 {["error" := VStr "Authentication required"]})
  end.

Definition dispatch (request : Request) : M exn Response :=
  if negb (enforce_iam c) then
    call_next (mark_authenticated request)
  else if is_public (url_path request) then
    call_next request
  else if startswith (url_path request) "/gql" then
    dispatch_gql request
  else dispatch_other request.

End Dispatch.


Definition handle_oauth_callback (token : option string) : M exn Response :=
  match token with
  | Some (String a s) =>
      try_except
        (let* result := call (oauth_authenticate_call (String a s))
                        (oauth_authenticate (String a s)) in
         let response := RedirectResponse "/gql" in
         ret (set_cookie response "session" (session_jwt result) true "lax"))
        (fun e =>
           ret (JSONResponse 401
                  {["error" := VStr ("Authentication failed: " +:+ exn_str e)]}))
  | _ =>
      ret (JSONResponse 400
             {["error" := VStr "No authentication token provided"]})
  end.

(** The session of the enforcement bypass in [require_auth]. *)
Definition dummy_session : gmap string pyval :=
  session_dict "anonymous" "none".

(** Lines 261-267 of [require_auth]. *)
Definition require_auth_token (session authorization : option string)
    : option string :=
  let session_token := session in
  if negb (truthy session_token) && truthy authorization then
    match authorization with
    | Some authorization =>
        let session_token :=
          if startswith authorization "Bearer " then
            slice_from 7 authorization
          else authorization in
        Some (strip session_token)
    | None => session_token
    end
  else session_token.

(** [require_auth]: the request with its state updated and the session
    information, or an [HTTPException]. *)
Definition require_auth (c : Config) (request : Request)
    (session authorization : option string)
    : M HTTPException (Request * gmap string pyval) :=
  if negb (enforce_iam c) then
    ret (store_session request dummy_session, dummy_session)
  else
    match require_auth_token session authorization with
    | Some (String a s) =>
        try_except
          (let* session_info := validate_session (String a s) in
           ret (store_session request session_info, session_info))
          (fun e =>
             raise (HTTPExc 401 ("Invalid session: " +:+ exn_str e)))
    | _ => raise (HTTPExc 401 "Authentication required")
    end.

(** The dependency as the framework calls it: [session] is the cookie of
    that name, [authorization] the header. *)
Definition require_auth_dep (c : Config) (request : Request)
    : M HTTPException (Request * gmap string pyval) :=
  require_auth c request (cookies request !! "session")
               (headers request !! "Authorization").


Definition callback_route (request : Request) : M exn Response :=
  handle_oauth_callback (query_params request !! "token").

(** [service/run.py], lines 56-65: the GraphQL router with its dependency.
    [require_auth] runs first; an [HTTPException] it raises is rendered by
    the framework's exception handler, otherwise the endpoint runs on the
    request whose state [require_auth] has updated.  The handler and the
    endpoint are parameters. *)
Definition gql_route (c : Config)
    (http_exception_handler : HTTPException -> Response)
    (graphql : Request -> M exn Response) (request : Request)
    : M exn Response :=
  match require_auth_dep c request with
  | (t, inl exc) => (t, inr (http_exception_handler exc))
  | (t, inr (request', _)) =>
      let '(t', r) := graphql request' in ((t ++ t')%list, r)
  end.

(** ** Paths *)

Lemma prefix_empty (s : string) : String.prefix "" s = true.
Proof. destruct s; reflexivity. Qed.

Lemma startswith_slash (p : string) :
  startswith p "/" = true <-> exists s, p = String "/" s.
Proof.
  unfold startswith. split.
  - destruct p as [|a p]; cbn [String.prefix]; [discriminate|].
    destruct (ascii_dec "/"%char a) as [<-|]; [eauto | discriminate].
  - intros [s ->]. cbn [String.prefix].
    destruct (ascii_dec "/"%char "/"%char); [apply prefix_empty | congruence].
Qed.

(** Every entry of [PUBLIC_PATHS] begins with ["/"], and ["/"] is an entry:
    the public paths are the paths that begin with ["/"]. *)
Lemma is_public_slash (p : string) : is_public p = startswith p "/".
Proof.
  unfold is_public, PUBLIC_PATHS, startswith.
  destruct p as [|a p]; [reflexivity|].
  cbn [existsb]. unfold startswith. cbn [String.prefix].
  destruct (ascii_dec "/"%char a); [|reflexivity].
  rewrite prefix_empty. reflexivity.
Qed.

Lemma gql_is_public (p : string) :
  startswith p "/gql" = true -> is_public p = true.
Proof.
  rewrite is_public_slash. unfold startswith.
  destruct p as [|a p]; [discriminate|]. cbn [String.prefix].
  destruct (ascii_dec "/"%char a); [intros _; apply prefix_empty | discriminate].
Qed.

Lemma not_public_not_gql (p : string) :
  is_public p = false -> startswith p "/gql" = false.
Proof.
  intros Hp. destruct (startswith p "/gql") eqn:Hg; [|reflexivity].
  apply gql_is_public in Hg. congruence.
Qed.

(** ** [validate_session], case by case *)

Lemma validate_session_empty :
  validate_session "" = raise (Exception_ "No session token provided").
Proof. reflexivity. Qed.

Lemma validate_session_local_ok (t : string) (s : Session) :
  str_truthy t = true ->
  authenticate_jwt_local t = inr (Some s) ->
  validate_session t =
    ([authenticate_jwt_local_call t],
     inr (session_dict (user_id s) (session_id s))).
Proof.
  intros Ht Hl. unfold validate_session, call. rewrite Ht, Hl. reflexivity.
Qed.

Lemma validate_session_local_raises (t : string) (e : exn) :
  str_truthy t = true ->
  authenticate_jwt_local t = inl e ->
  validate_session t =
    ([authenticate_jwt_local_call t],
     inl (Exception_ ("Invalid session: " +:+ exn_str e))).
Proof.
  intros Ht Hl. unfold validate_session, call. rewrite Ht, Hl. reflexivity.
Qed.

Lemma validate_session_remote_ok (t : string) (r : Session) :
  str_truthy t = true ->
  authenticate_jwt_local t = inr None ->
  authenticate t = inr r ->
  validate_session t =
    ([authenticate_jwt_local_call t; authenticate_call t],
     inr (session_dict (user_id r) (session_id r))).
Proof.
  intros Ht Hl Hr. unfold validate_session, call. rewrite Ht, Hl. cbn.
  rewrite Hr. reflexivity.
Qed.

Lemma validate_session_remote_raises (t : string) (e : exn) :
  str_truthy t = true ->
  authenticate_jwt_local t = inr None ->
  authenticate t = inl e ->
  validate_session t =
    ([authenticate_jwt_local_call t; authenticate_call t],
     inl (Exception_ ("Invalid session: " +:+ exn_str e))).
Proof.
  intros Ht Hl Hr. unfold validate_session, call. rewrite Ht, Hl. cbn.
  rewrite Hr. reflexivity.
Qed.

(** The first provider call of a validation is the local verification of the
    token it was given. *)
Lemma validate_session_local_first (t : string) :
  str_truthy t = true ->
  exists rest,
    trace (validate_session t) = authenticate_jwt_local_call t :: rest.
Proof.
  intros Ht.
  destruct (authenticate_jwt_local t) as [e|[s|]] eqn:Hl.
  - rewrite (validate_session_local_raises t e Ht Hl). eexists; reflexivity.
  - rewrite (validate_session_local_ok t s Ht Hl). eexists; reflexivity.
  - destruct (authenticate t) as [e|r] eqn:Hr.
    + rewrite (validate_session_remote_raises t e Ht Hl Hr).
      eexists; reflexivity.
    + rewrite (validate_session_remote_ok t r Ht Hl Hr).
      eexists; reflexivity.
Qed.

Lemma trace_bind {E A B : Type} (m : M E A) (k : A -> M E B) :
  exists rest, trace (bind m k) = (trace m ++ rest)%list.
Proof.
  destruct m as [t [e|a]]; cbn.
  - exists []. symmetry. apply app_nil_r.
  - destruct (k a) as [t' r]. exists t'. reflexivity.
Qed.

Lemma trace_try_except {E E' A : Type} (m : M E A) (h : E -> M E' A) :
  exists rest, trace (try_except m h) = (trace m ++ rest)%list.
Proof.
  destruct m as [t [e|a]]; cbn.
  - destruct (h e) as [t' r]. exists t'. reflexivity.
  - exists []. symmetry. apply app_nil_r.
Qed.

(** ** The middleware *)

Lemma dispatch_disabled (c : Config) (call_next : Request -> M exn Response)
    (request : Request) :
  enforce_iam c = false ->
  dispatch c call_next request = call_next (mark_authenticated request).
Proof. intros Hc. unfold dispatch. rewrite Hc. reflexivity. Qed.

Lemma dispatch_public (c : Config) (call_next : Request -> M exn Response)
    (request : Request) :
  enforce_iam c = true ->
  is_public (url_path request) = true ->
  dispatch c call_next request = call_next request.
Proof. intros Hc Hp. unfold dispatch. rewrite Hc, Hp. reflexivity. Qed.

(** With enforcement on, a path outside the public set is handled by lines
    88-116: the branch for [/gql] is never entered. *)
Lemma dispatch_not_public (c : Config) (call_next : Request -> M exn Response)
    (request : Request) :
  enforce_iam c = true ->
  is_public (url_path request) = false ->
  dispatch c call_next request = dispatch_other call_next request.
Proof.
  intros Hc Hp. unfold dispatch.
  rewrite Hc, Hp, (not_public_not_gql _ Hp). reflexivity.
Qed.

(** ** The session dict *)

Lemma session_dict_user_id (uid sid : string) :
  session_dict uid sid !! "user_id" = Some (VStr uid).
Proof. unfold session_dict. apply lookup_insert_eq. Qed.

Lemma session_dict_session_id (uid sid : string) :
  session_dict uid sid !! "session_id" = Some (VStr sid).
Proof.
  unfold session_dict. rewrite lookup_insert_ne by discriminate.
  apply lookup_insert_eq.
Qed.

Lemma session_dict_authenticated (uid sid : string) :
  session_dict uid sid !! "authenticated" = Some (VBool true).
Proof.
  unfold session_dict. rewrite !lookup_insert_ne by discriminate.
  apply lookup_singleton_eq.
Qed.

Lemma store_session_state (request : Request) (uid sid : string) :
  state (store_session request (session_dict uid sid)) =
    {| st_session := Some (session_dict uid sid);
       st_authenticated := Some true;
       st_user_id := Some (VStr uid) |}.
Proof.
  unfold store_session, dict_get. cbn [state with_state].
  rewrite session_dict_user_id. reflexivity.
Qed.

(** ** Validation inside the gate *)

Lemma validate_session_trace (t : string) :
  str_truthy t = true ->
  trace (validate_session t) =
    authenticate_jwt_local_call t ::
      match authenticate_jwt_local t with
      | inr None => [authenticate_call t]
      | _ => []
      end.
Proof.
  intros Ht.
  destruct (authenticate_jwt_local t) as [e|[s|]] eqn:Hl.
  - rewrite (validate_session_local_raises t e Ht Hl). reflexivity.
  - rewrite (validate_session_local_ok t s Ht Hl). reflexivity.
  - destruct (authenticate t) as [e|r] eqn:Hr.
    + rewrite (validate_session_remote_raises t e Ht Hl Hr). reflexivity.
    + rewrite (validate_session_remote_ok t r Ht Hl Hr). reflexivity.
Qed.

Lemma validate_and_continue_ok (call_next : Request -> M exn Response)
    (request : Request) (t : string) (tv tr : list event)
    (d : gmap string pyval) (response : Response) :
  validate_session t = (tv, inr d) ->
  call_next (store_session request d) = (tr, inr response) ->
  validate_and_continue call_next request t = ((tv ++ tr)%list, inr response).
Proof.
  intros Hv Hn. unfold validate_and_continue. rewrite Hv. cbn.
  rewrite Hn. reflexivity.
Qed.

Lemma validate_and_continue_next_raises (call_next : Request -> M exn Response)
    (request : Request) (t : string) (tv tr : list event)
    (d : gmap string pyval) (e : exn) :
  validate_session t = (tv, inr d) ->
  call_next (store_session request d) = (tr, inl e) ->
  validate_and_continue call_next request t =
    ((tv ++ tr)%list, inr (invalid_session_response e)).
Proof.
  intros Hv Hn. unfold validate_and_continue. rewrite Hv. cbn.
  rewrite Hn. cbn. rewrite app_nil_r. reflexivity.
Qed.

Lemma validate_and_continue_invalid (call_next : Request -> M exn Response)
    (request : Request) (t : string) (tv : list event) (e : exn) :
  validate_session t = (tv, inl e) ->
  validate_and_continue call_next request t =
    (tv, inr (invalid_session_response e)).
Proof.
  intros Hv. unfold validate_and_continue. rewrite Hv. cbn.
  rewrite app_nil_r. reflexivity.
Qed.

(** Whatever happens, lines 103-116 produce a response. *)
Lemma validate_and_continue_returns (call_next : Request -> M exn Response)
    (request : Request) (t : string) :
  exists response,
    outcome (validate_and_continue call_next request t) = inr response.
Proof.
  destruct (validate_session t) as [tv [e|d]] eqn:Hv.
  - rewrite (validate_and_continue_invalid call_next request t tv e Hv).
    eexists; reflexivity.
  - destruct (call_next (store_session request d)) as [tr [e|response]] eqn:Hn.
    + rewrite (validate_and_continue_next_raises _ _ _ _ _ _ _ Hv Hn).
      eexists; reflexivity.
    + rewrite (validate_and_continue_ok _ _ _ _ _ _ _ Hv Hn).
      eexists; reflexivity.
Qed.

Lemma validate_and_continue_trace (call_next : Request -> M exn Response)
    (request : Request) (t : string) :
  exists rest,
    trace (validate_and_continue call_next request t) =
      (trace (validate_session t) ++ rest)%list.
Proof.
  unfold validate_and_continue.
  match goal with
  | |- context [try_except ?m ?h] =>
      destruct (trace_try_except m h) as [r1 H1]; rewrite H1
  end.
  match goal with
  | |- context [bind ?m ?k] =>
      destruct (trace_bind m k) as [r2 H2]; rewrite H2
  end.
  exists (r2 ++ r1)%list. symmetry. apply app_assoc.
Qed.

Lemma dispatch_other_token (call_next : Request -> M exn Response)
    (request : Request) (t : string) :
  dispatch_token request = Some t ->
  str_truthy t = true ->
  dispatch_other call_next request = validate_and_continue call_next request t.
Proof.
  intros Hd Ht. unfold dispatch_other. rewrite Hd, Ht. reflexivity.
Qed.


(** The branch of lines 49-86 is dead: a path under [/gql] is public. *)
Lemma dispatch_gql_unreachable (c : Config)
    (call_next : Request -> M exn Response) (request : Request) :
  startswith (url_path request) "/gql" = true ->
  dispatch c call_next request =
    call_next (if enforce_iam c then request else mark_authenticated request).
Proof.
  intros Hg. unfold dispatch.
  destruct (enforce_iam c); cbn [negb]; [|reflexivity].
  rewrite (gql_is_public _ Hg). reflexivity.
Qed.

(** Taken on its own, that branch raises when no token was extracted. *)
Lemma dispatch_gql_without_token (call_next : Request -> M exn Response)
    (request : Request) :
  dispatch_token request = None ->
  dispatch_gql call_next request = raise AttributeError_strip.
Proof. intros Hd. unfold dispatch_gql. rewrite Hd. reflexivity. Qed.

(** ** [require_auth] *)

Lemma require_auth_token_cookie (t : string) (authorization : option string) :
  str_truthy t = true ->
  require_auth_token (Some t) authorization = Some t.
Proof.
  intros Ht. unfold require_auth_token. cbn [truthy]. rewrite Ht. reflexivity.
Qed.

Lemma require_auth_token_header (session : option string) (h : string) :
  truthy session = false ->
  str_truthy h = true ->
  require_auth_token session (Some h) =
    Some (strip (if startswith h "Bearer " then slice_from 7 h else h)).
Proof.
  intros Hs Hh. unfold require_auth_token. cbn [truthy]. rewrite Hs, Hh.
  reflexivity.
Qed.

Lemma require_auth_trace (c : Config) (request : Request)
    (session authorization : option string) (t : string) :
  enforce_iam c = true ->
  require_auth_token session authorization = Some t ->
  str_truthy t = true ->
  trace (require_auth c request session authorization) =
    trace (validate_session t).
Proof.
  intros Hc Hr Ht. unfold require_auth. rewrite Hc, Hr. cbn [negb].
  destruct t as [|a t]; [discriminate|].
  destruct (validate_session (String a t)) as [tv [e|d]]; cbn;
    rewrite ?app_nil_r; reflexivity.
Qed.

Example strip_example : strip "  tok " = "tok".
Proof. reflexivity. Qed.

(** ** The claims *)


(** C2. With enforcement on, a request whose path matches no entry of
    [PUBLIC_PATHS] and that carries neither a [session] cookie nor an
    [Authorization] header is answered 401 with the body
    [{"error": "Authentication required"}], and no provider call is made. *)
Theorem dispatch_missing_credential (c : Config)
    (call_next : Request -> M exn Response) (request : Request) :
  enforce_iam c = true ->
  is_public (url_path request) = false ->
  cookies request !! "session" = None ->
  headers request !! "Authorization" = None ->
  dispatch c call_next request =
    ret (JSONResponse 401 {["error" := VStr "Authentication required"]}).
Proof.
  intros Hc Hp Hck Hh. rewrite (dispatch_not_public c call_next request Hc Hp).
  unfold dispatch_other, dispatch_token. rewrite Hck, Hh. reflexivity.
Qed.

(** C3, as the code has it.  With enforcement off, the middleware forwards
    every request to the next handler with [request.state.authenticated] set
    to [True] and nothing else attached, making no provider call of its own;
    the synthetic identity (user id ["anonymous"], session id ["none"],
    authenticated) is returned and attached by [require_auth], whatever the
    cookie and the header are. *)
Theorem enforcement_disabled_forwards (c : Config)
    (call_next : Request -> M exn Response) (request : Request)
    (session authorization : option string) :
  enforce_iam c = false ->
  dispatch c call_next request = call_next (mark_authenticated request)
  /\ state (mark_authenticated request) =
       {| st_session := st_session (state request);
          st_authenticated := Some true;
          st_user_id := st_user_id (state request) |}
  /\ require_auth c request session authorization =
       ret (store_session request dummy_session, dummy_session)
  /\ state (store_session request dummy_session) =
       {| st_session := Some dummy_session;
          st_authenticated := Some true;
          st_user_id := Some (VStr "anonymous") |}
  /\ dummy_session !! "user_id" = Some (VStr "anonymous")
  /\ dummy_session !! "session_id" = Some (VStr "none")
  /\ dummy_session !! "authenticated" = Some (VBool true).
Proof.
  intros Hc.
  refine (conj _ (conj eq_refl (conj _ (conj _ (conj _ (conj _ _)))))).
  - apply dispatch_disabled, Hc.
  - unfold require_auth. rewrite Hc. reflexivity.
  - apply store_session_state.
  - apply session_dict_user_id.
  - apply session_dict_session_id.
  - apply session_dict_authenticated.
Qed.


(** C5, at the inputs where the middleware departs from it.  On a path
    outside the public set, [dispatch] does not use a raw [Authorization]
    value (it answers 401 without validating anything) and does not trim the
    remainder of a [Bearer ] value, while [require_auth] validates the raw
    value and trims. *)
Theorem dispatch_drops_raw_authorization
    (call_next : Request -> M exn Response) :
  dispatch cfg call_next (mk_request "*" None (Some "tok123") None) =
    ret (JSONResponse 401 {["error" := VStr "Authentication required"]})
  /\ (exists rest,
        trace (require_auth_dep cfg
                 (mk_request "*" None (Some "tok123") None)) =
          authenticate_jwt_local_call "tok123" :: rest)
  /\ dispatch_token (mk_request "*" None (Some "Bearer  tok ") None) =
       Some " tok "
  /\ require_auth_token None (Some "Bearer  tok ") = Some "tok".
Proof.
  refine (conj eq_refl (conj _ (conj eq_refl eq_refl))).
  unfold require_auth_dep.
  set (request := mk_request "*" None (Some "tok123") None).
  assert (Hr : require_auth_token (cookies request !! "session")
                 (headers request !! "Authorization") = Some "tok123")
    by reflexivity.
  rewrite (require_auth_trace cfg request _ _ "tok123" eq_refl Hr eq_refl).
  apply validate_session_local_first. reflexivity.
Qed.

(** C6. A validation calls local verification first and calls remote
    verification exactly when the local one returned no result.  When the
    local result is absent and the remote call succeeds, the validation
    returns the identity of the remote result with [authenticated] true; the
    middleware then hands the request, carrying that identity, to the next
    handler and returns its response, and [require_auth] returns that
    identity. *)
Theorem local_first_remote_fallback (c : Config)
    (call_next : Request -> M exn Response) (request : Request) (t : string) :
  str_truthy t = true ->
  trace (validate_session t) =
    authenticate_jwt_local_call t ::
      match authenticate_jwt_local t with
      | inr None => [authenticate_call t]
      | _ => []
      end
  /\ (In (authenticate_call t) (trace (validate_session t)) <->
      authenticate_jwt_local t = inr None)
  /\ (forall r : Session,
        authenticate_jwt_local t = inr None ->
        authenticate t = inr r ->
        let identity := session_dict (user_id r) (session_id r) in
        validate_session t =
          ([authenticate_jwt_local_call t; authenticate_call t], inr identity)
        /\ identity !! "user_id" = Some (VStr (user_id r))
        /\ identity !! "session_id" = Some (VStr (session_id r))
        /\ identity !! "authenticated" = Some (VBool true)
        /\ state (store_session request identity) =
             {| st_session := Some identity;
                st_authenticated := Some true;
                st_user_id := Some (VStr (user_id r)) |}
        /\ (forall (tr : list event) (response : Response),
              enforce_iam c = true ->
              is_public (url_path request) = false ->
              dispatch_token request = Some t ->
              call_next (store_session request identity) =
                (tr, inr response) ->
              dispatch c call_next request =
                (authenticate_jwt_local_call t :: authenticate_call t :: tr,
                 inr response))
        /\ (forall session authorization : option string,
              enforce_iam c = true ->
              require_auth_token session authorization = Some t ->
              require_auth c request session authorization =
                ([authenticate_jwt_local_call t; authenticate_call t],
                 inr (store_session request identity, identity)))).
Proof.
  intros Ht. refine (conj (validate_session_trace t Ht) (conj _ _)).
  - rewrite (validate_session_trace t Ht).
    destruct (authenticate_jwt_local t) as [e|[s|]]; cbn [In]; split;
      try discriminate; try reflexivity.
    + intros [H|[]]; discriminate H.
    + intros [H|[]]; discriminate H.
    + intros _. right. left. reflexivity.
  - intros r Hl Hr identity.
    pose proof (validate_session_remote_ok t r Ht Hl Hr) as Hv.
    fold identity in Hv.
    refine (conj Hv (conj _ (conj _ (conj _ (conj _ (conj _ _)))))).
    + apply session_dict_user_id.
    + apply session_dict_session_id.
    + apply session_dict_authenticated.
    + apply store_session_state.
    + intros tr response Hc Hp Hd Hn.
      rewrite (dispatch_not_public c call_next request Hc Hp).
      rewrite (dispatch_other_token call_next request t Hd Ht).
      rewrite (validate_and_continue_ok _ _ _ _ _ _ _ Hv Hn). reflexivity.
    + intros session authorization Hc Hra.
      unfold require_auth. rewrite Hc, Hra. cbn [negb].
      destruct t as [|a t]; [discriminate|].
      rewrite Hv. reflexivity.
Qed.

(** C7. With enforcement on and a path outside the public set, a credential
    whose local verification raises, or whose local verification returns no
    result and whose remote verification raises, is answered 401 with a body
    [{"error": ...}] whose message ends with the provider's failure detail;
    the next handler is not called. *)
Theorem invalid_credential_rejected (c : Config)
    (call_next : Request -> M exn Response) (request : Request)
    (t : string) (e : exn) :
  enforce_iam c = true ->
  is_public (url_path request) = false ->
  dispatch_token request = Some t ->
  str_truthy t = true ->
  (authenticate_jwt_local t = inl e
   \/ (authenticate_jwt_local t = inr None /\ authenticate t = inl e)) ->
  outcome (validate_session t) =
    inl (Exception_ ("Invalid session: " +:+ exn_str e))
  /\ dispatch c call_next request =
       (trace (validate_session t),
        inr (JSONResponse 401
               {["error" := VStr ("Invalid session: Invalid session: "
                                  +:+ exn_str e)]})).
Proof.
  intros Hc Hp Hd Ht Hfail.
  assert (Hv : exists tv, validate_session t =
            (tv, inl (Exception_ ("Invalid session: " +:+ exn_str e)))).
  { destruct Hfail as [Hl|[Hl Hr]].
    - rewrite (validate_session_local_raises t e Ht Hl). eexists; reflexivity.
    - rewrite (validate_session_remote_raises t e Ht Hl Hr).
      eexists; reflexivity. }
  destruct Hv as [tv Hv]. split.
  - rewrite Hv. reflexivity.
  - rewrite (dispatch_not_public c call_next request Hc Hp).
    rewrite (dispatch_other_token call_next request t Hd Ht).
    rewrite (validate_and_continue_invalid call_next request t tv _ Hv).
    rewrite Hv. reflexivity.
Qed.

(** C8. A request to [/auth/callback] without a [token] query parameter is
    answered 400 with the body
    [{"error": "No authentication token provided"}], through the middleware
    and whatever the enforcement flag is, and the trace of provider calls is
    empty. *)
Theorem callback_without_token (c : Config) (request : Request) :
  url_path request = "/auth/callback" ->
  query_params request !! "token" = None ->
  handle_oauth_callback None =
    ([], inr (JSONResponse 400
                {["error" := VStr "No authentication token provided"]}))
  /\ dispatch c callback_route request =
       ([], inr (JSONResponse 400
                   {["error" := VStr "No authentication token provided"]})).
Proof.
  intros Hpath Hq. split; [reflexivity|].
  unfold dispatch, is_public. rewrite Hpath.
  destruct (enforce_iam c); cbn [negb];
    unfold callback_route; cbn; rewrite Hq; reflexivity.
Qed.

(** C9. A request to [/auth/callback] with a token: when the provider's
    exchange returns, the answer redirects to [/gql] and sets the cookie
    [session] to the returned session token with [httponly] true and
    [samesite] ["lax"]; when the exchange raises, the answer is 401 with a
    body [{"error": ...}].  Either way one provider call is made. *)
Theorem callback_with_token (c : Config) (request : Request) (t : string) :
  url_path request = "/auth/callback" ->
  query_params request !! "token" = Some t ->
  str_truthy t = true ->
  (forall r : OAuthResult,
     oauth_authenticate t = inr r ->
     dispatch c callback_route request =
       ([oauth_authenticate_call t],
        inr {| status_code := 307;
               body := Location "/gql";
               set_cookies := [{| key := "session";
                                  value := session_jwt r;
                                  httponly := true;
                                  samesite := "lax" |}] |}))
  /\ (forall e : exn,
        oauth_authenticate t = inl e ->
        dispatch c callback_route request =
          ([oauth_authenticate_call t],
           inr (JSONResponse 401
                  {["error" := VStr ("Authentication failed: "
                                     +:+ exn_str e)]}))).
Proof.
  intros Hpath Hq Ht.
  assert (Hd : dispatch c callback_route request =
               handle_oauth_callback (Some t)).
  { unfold dispatch, is_public. rewrite Hpath.
    destruct (enforce_iam c); cbn [negb];
      unfold callback_route; cbn; rewrite Hq; reflexivity. }
  rewrite Hd. destruct t as [|a t]; [discriminate|].
  split; intros x Hx; unfold handle_oauth_callback, call; rewrite Hx;
    reflexivity.
Qed.


(** ** Further properties of the gate *)

Lemma prefix_split (p h : string) :
  String.prefix p h = true ->
  h = p +:+ slice_from (String.length p) h.
Proof.
  revert h. induction p as [|a p IH]; intros h Hp.
  - destruct h; reflexivity.
  - destruct h as [|b h]; cbn [String.prefix] in Hp; [discriminate|].
    destruct (ascii_dec a b) as [<-|]; [|discriminate].
    change (String a h = String a (p +:+ slice_from (String.length p) h)).
    f_equal. apply IH, Hp.
Qed.

Lemma bearer_remainder (h : string) :
  startswith h "Bearer " = true ->
  h <> "Bearer " ->
  str_truthy (slice_from 7 h) = true.
Proof.
  intros Hp Hne. apply prefix_split in Hp. cbn [String.length] in Hp.
  destruct (slice_from 7 h) as [|a r]; [|reflexivity].
  exfalso. apply Hne. exact Hp.
Qed.

Lemma bearer_alone : slice_from 7 "Bearer " = "".
Proof. reflexivity. Qed.

(** When the middleware finds no usable credential. *)
Lemma dispatch_token_falsy (request : Request) :
  truthy (cookies request !! "session") = false ->
  match headers request !! "Authorization" with
  | None => True
  | Some h => startswith h "Bearer " = false \/ h = "Bearer "
  end ->
  truthy (dispatch_token request) = false.
Proof.
  intros Hck Hh. unfold dispatch_token. rewrite Hck. cbn [negb].
  destruct (headers request !! "Authorization") as [h|]; [|exact Hck].
  destruct Hh as [Hh| ->].
  - rewrite Hh. exact Hck.
  - reflexivity.
Qed.

(** X1. A path is public exactly when it begins with ["/"]: the five other
    entries of [PUBLIC_PATHS] add nothing. *)
Theorem public_iff_rooted (p : string) :
  is_public p = true <-> exists s, p = String "/" s.
Proof. rewrite is_public_slash. apply startswith_slash. Qed.

(** X2. The branch of [dispatch] for paths under [/gql] is dead: for every
    configuration, handler and request, [dispatch] is the function without
    that branch. *)
Theorem dispatch_gql_branch_dead (c : Config)
    (call_next : Request -> M exn Response) (request : Request) :
  dispatch c call_next request =
    if negb (enforce_iam c) then call_next (mark_authenticated request)
    else if is_public (url_path request) then call_next request
    else dispatch_other call_next request.
Proof.
  unfold dispatch. destruct (enforce_iam c); cbn [negb]; [|reflexivity].
  destruct (is_public (url_path request)) eqn:Hp; [reflexivity|].
  rewrite (not_public_not_gql _ Hp). reflexivity.
Qed.

(** X3. Taken on its own, the branch for [/gql] raises exactly when no token
    was extracted, that is when there is no [session] cookie and no
    [Authorization] value beginning with ["Bearer "]; it then raises the
    [AttributeError] of [None.strip()] and has made no provider call. *)
Theorem dispatch_gql_raises_iff (call_next : Request -> M exn Response)
    (request : Request) :
  (dispatch_token request = None <->
   cookies request !! "session" = None
   /\ match headers request !! "Authorization" with
      | None => True
      | Some h => startswith h "Bearer " = false
      end)
  /\ (dispatch_token request = None ->
      dispatch_gql call_next request = ([], inl AttributeError_strip))
  /\ (forall e : exn,
        outcome (dispatch_gql call_next request) = inl e ->
        dispatch_token request = None /\ e = AttributeError_strip).
Proof.
  refine (conj _ (conj _ _)).
  - unfold dispatch_token.
    destruct (cookies request !! "session") as [ck|]; cbn [truthy].
    + split; [|intros [H _]; discriminate H].
      destruct (str_truthy ck); cbn [negb]; [discriminate|].
      destruct (headers request !! "Authorization") as [h|]; [|discriminate].
      destruct (startswith h "Bearer "); discriminate.
    + cbn [negb].
      destruct (headers request !! "Authorization") as [h|];
        [|split; [intros _; split; [reflexivity | exact I]
                 | intros _; reflexivity]].
      destruct (startswith h "Bearer ").
      * split; [discriminate | intros [_ H]; discriminate H].
      * split; [intros _; split; reflexivity | intros _; reflexivity].
  - intros Hd. unfold dispatch_gql. rewrite Hd. reflexivity.
  - intros e He. unfold dispatch_gql in He.
    destruct (dispatch_token request) as [t|]; cbn in He.
    + exfalso. destruct (str_truthy (strip t)); cbn [negb] in He.
      * destruct (validate_and_continue_returns call_next request (strip t))
          as [resp Hr].
        unfold outcome in Hr.
        destruct (validate_and_continue call_next request (strip t))
          as [tv o].
        cbn in He, Hr. congruence.
      * cbn in He. discriminate He.
    + split; [reflexivity | congruence].
Qed.

(** X4. With enforcement on and a path outside the public set, a request
    whose [session] cookie is absent or empty and whose [Authorization]
    header is absent, does not begin with ["Bearer "], or is ["Bearer "]
    alone, is answered 401 [{"error": "Authentication required"}] without any
    provider call and without reaching the next handler. *)
Theorem dispatch_no_usable_credential (c : Config)
    (call_next : Request -> M exn Response) (request : Request) :
  enforce_iam c = true ->
  is_public (url_path request) = false ->
  truthy (cookies request !! "session") = false ->
  match headers request !! "Authorization" with
  | None => True
  | Some h => startswith h "Bearer " = false \/ h = "Bearer "
  end ->
  dispatch c call_next request =
    ret (JSONResponse 401 {["error" := VStr "Authentication required"]}).
Proof.
  intros Hc Hp Hck Hh.
  pose proof (dispatch_token_falsy request Hck Hh) as Hf.
  rewrite (dispatch_not_public c call_next request Hc Hp).
  unfold dispatch_other.
  destruct (dispatch_token request) as [t|]; [|reflexivity].
  cbn [truthy] in Hf. rewrite Hf. reflexivity.
Qed.

(** X5. With enforcement on and a path outside the public set, when the
    [session] cookie is absent or empty and the [Authorization] header is
    ["Bearer "] followed by at least one character, the credential validated
    is the header without its first seven characters, untrimmed: the first
    provider call is its local verification. *)
Theorem dispatch_validates_bearer (c : Config)
    (call_next : Request -> M exn Response) (request : Request) (h : string) :
  enforce_iam c = true ->
  is_public (url_path request) = false ->
  truthy (cookies request !! "session") = false ->
  headers request !! "Authorization" = Some h ->
  startswith h "Bearer " = true ->
  h <> "Bearer " ->
  h = "Bearer " +:+ slice_from 7 h
  /\ dispatch_token request = Some (slice_from 7 h)
  /\ exists rest,
       trace (dispatch c call_next request) =
         authenticate_jwt_local_call (slice_from 7 h) :: rest.
Proof.
  intros Hc Hp Hck Hh Hb Hne.
  pose proof (bearer_remainder h Hb Hne) as Ht.
  assert (Hd : dispatch_token request = Some (slice_from 7 h)).
  { unfold dispatch_token. rewrite Hck, Hh, Hb. reflexivity. }
  refine (conj (prefix_split "Bearer " h Hb) (conj Hd _)).
  rewrite (dispatch_not_public c call_next request Hc Hp).
  rewrite (dispatch_other_token call_next request _ Hd Ht).
  destruct (validate_and_continue_trace call_next request (slice_from 7 h))
    as [r1 H1].
  destruct (validate_session_local_first _ Ht) as [r2 H2].
  rewrite H1, H2. eexists. reflexivity.
Qed.

(** *** Validation and [require_auth], by outcome *)

Lemma validate_session_inv (t : string) :
  str_truthy t = true ->
  (exists e0 : exn,
     (authenticate_jwt_local t = inl e0
      \/ (authenticate_jwt_local t = inr None /\ authenticate t = inl e0))
     /\ outcome (validate_session t) =
          inl (Exception_ ("Invalid session: " +:+ exn_str e0)))
  \/ (exists s : Session,
        (authenticate_jwt_local t = inr (Some s)
         \/ (authenticate_jwt_local t = inr None /\ authenticate t = inr s))
        /\ outcome (validate_session t) =
             inr (session_dict (user_id s) (session_id s))).
Proof.
  intros Ht.
  destruct (authenticate_jwt_local t) as [e|[s|]] eqn:Hl.
  - left. exists e. rewrite (validate_session_local_raises t e Ht Hl). auto.
  - right. exists s. rewrite (validate_session_local_ok t s Ht Hl). auto.
  - destruct (authenticate t) as [e|r] eqn:Hr.
    + left. exists e.
      rewrite (validate_session_remote_raises t e Ht Hl Hr). auto.
    + right. exists r.
      rewrite (validate_session_remote_ok t r Ht Hl Hr). auto.
Qed.

Lemma validate_session_trace_nonempty (t : string) :
  str_truthy t = true -> trace (validate_session t) <> [].
Proof. intros Ht. rewrite (validate_session_trace t Ht). discriminate. Qed.

Lemma require_auth_enforced (c : Config) (request : Request)
    (session authorization : option string) :
  enforce_iam c = true ->
  require_auth c request session authorization =
    match require_auth_token session authorization with
    | Some (String a s) =>
        match validate_session (String a s) with
        | (tv, inl e) =>
            (tv, inl (HTTPExc 401 ("Invalid session: " +:+ exn_str e)))
        | (tv, inr d) => (tv, inr (store_session request d, d))
        end
    | _ => raise (HTTPExc 401 "Authentication required")
    end.
Proof.
  intros Hc. unfold require_auth. rewrite Hc. cbn [negb].
  destruct (require_auth_token session authorization) as [[|a s]|];
    try reflexivity.
  destruct (validate_session (String a s)) as [tv [e|d]]; cbn;
    rewrite ?app_nil_r; reflexivity.
Qed.

Lemma session_dict_dom (uid sid : string) :
  dom (session_dict uid sid) =
    ({["user_id"; "session_id"; "authenticated"]} : gset string).
Proof.
  unfold session_dict. rewrite !dom_insert_L, dom_singleton_L. set_solver.
Qed.

(** X6. Whenever [validate_session] returns, the token was not empty and the
    result is a dict with exactly the keys [user_id], [session_id] and
    [authenticated], the last one [True], built from the session that the
    local verification returned or, when that returned none, from the one
    the remote verification returned. *)
Theorem validate_session_returns_identity (t : string)
    (d : gmap string pyval) :
  outcome (validate_session t) = inr d ->
  str_truthy t = true
  /\ dom d = ({["user_id"; "session_id"; "authenticated"]} : gset string)
  /\ d !! "authenticated" = Some (VBool true)
  /\ exists s : Session,
       d = session_dict (user_id s) (session_id s)
       /\ (authenticate_jwt_local t = inr (Some s)
           \/ (authenticate_jwt_local t = inr None
               /\ authenticate t = inr s)).
Proof.
  intros Hd.
  destruct (str_truthy t) eqn:Ht.
  2:{ destruct t; [|discriminate]. discriminate Hd. }
  destruct (validate_session_inv t Ht) as [[e0 [_ He]]|[s [Hs Ho]]];
    [congruence|].
  assert (d = session_dict (user_id s) (session_id s)) as -> by congruence.
  refine (conj eq_refl (conj _ (conj _ _))).
  - apply session_dict_dom.
  - apply session_dict_authenticated.
  - exists s. auto.
Qed.

(** X7. Whenever [validate_session] raises, the exception is a plain
    [Exception]: either the token was empty, the message is
    ["No session token provided"] and no provider call was made, or the
    message is ["Invalid session: "] followed by the message of the
    exception that the local verification raised or, the local result being
    absent, that the remote verification raised. *)
Theorem validate_session_failure_shape (t : string) (e : exn) :
  outcome (validate_session t) = inl e ->
  exn_class e = "Exception"
  /\ ((t = ""
       /\ exn_str e = "No session token provided"
       /\ trace (validate_session t) = [])
      \/ (str_truthy t = true
          /\ trace (validate_session t) <> []
          /\ exists e0 : exn,
               exn_str e = "Invalid session: " +:+ exn_str e0
               /\ (authenticate_jwt_local t = inl e0
                   \/ (authenticate_jwt_local t = inr None
                       /\ authenticate t = inl e0)))).
Proof.
  intros He.
  destruct (str_truthy t) eqn:Ht.
  - destruct (validate_session_inv t Ht) as [[e0 [H0 Ho]]|[s [_ Ho]]];
      [|congruence].
    assert (e = Exception_ ("Invalid session: " +:+ exn_str e0)) as ->
      by congruence.
    split; [reflexivity|]. right.
    refine (conj eq_refl (conj (validate_session_trace_nonempty t Ht) _)).
    exists e0. split; [reflexivity | exact H0].
  - destruct t; [|discriminate]. cbn in He.
    assert (e = Exception_ "No session token provided") as -> by congruence.
    split; [reflexivity|]. left. repeat split.
Qed.


(** X9. Whenever [require_auth] returns, the session information returned is
    the one stored in [request.state.session], [request.state.authenticated]
    is [True], [request.state.user_id] is its [user_id], its [authenticated]
    entry is [True], and nothing else of the request has changed. *)
Theorem require_auth_returns_attached_session (c : Config)
    (request : Request) (session authorization : option string)
    (request' : Request) (info : gmap string pyval) :
  outcome (require_auth c request session authorization) =
    inr (request', info) ->
  request' = store_session request info
  /\ st_session (state request') = Some info
  /\ st_authenticated (state request') = Some true
  /\ info !! "authenticated" = Some (VBool true)
  /\ (exists uid sid : string,
        info = session_dict uid sid
        /\ st_user_id (state request') = Some (VStr uid))
  /\ url_path request' = url_path request
  /\ cookies request' = cookies request
  /\ headers request' = headers request
  /\ query_params request' = query_params request.
Proof.
  intros Ho.
  assert (H : request' = store_session request info
              /\ exists uid sid, info = session_dict uid sid).
  { destruct (enforce_iam c) eqn:Hc.
    - rewrite (require_auth_enforced c request session authorization Hc)
        in Ho.
      destruct (require_auth_token session authorization) as [[|a s]|];
        try discriminate Ho.
      pose proof (validate_session_inv (String a s) eq_refl) as Hinv.
      destruct (validate_session (String a s)) as [tv [e|d]];
        cbn in Ho, Hinv; [discriminate Ho|].
      destruct Hinv as [[e0 [_ H]]|[s0 [_ H]]]; [discriminate H|].
      assert (d = session_dict (user_id s0) (session_id s0)) as ->
        by congruence.
      split; [congruence|]. exists (user_id s0), (session_id s0). congruence.
    - unfold require_auth in Ho. rewrite Hc in Ho. cbn in Ho.
      split; [congruence|]. exists "anonymous", "none".
      unfold dummy_session in Ho. congruence. }
  destruct H as [-> [uid [sid ->]]].
  rewrite store_session_state. cbn.
  refine (conj eq_refl (conj eq_refl (conj eq_refl (conj _ (conj _ _))))).
  - apply session_dict_authenticated.
  - exists uid, sid. split; reflexivity.
  - repeat split.
Qed.

(** *** Trimming *)

Lemma lstrip_chars_all_space (l : list ascii) :
  Forall (fun a => isspace a = true) l -> lstrip_chars l = [].
Proof.
  induction 1 as [|a l Ha _ IH]; [reflexivity|].
  cbn [lstrip_chars]. rewrite Ha. exact IH.
Qed.

Lemma lstrip_chars_head (l : list ascii) (a : ascii) (l' : list ascii) :
  lstrip_chars l = a :: l' -> isspace a = false.
Proof.
  induction l as [|b l IH]; cbn [lstrip_chars]; [discriminate|].
  destruct (isspace b) eqn:Hb; [exact IH|].
  intros H. injection H as <- _. exact Hb.
Qed.

Lemma lstrip_chars_suffix (l : list ascii) :
  exists pre, l = (pre ++ lstrip_chars l)%list.
Proof.
  induction l as [|b l [pre IH]]; [exists []; reflexivity|].
  cbn [lstrip_chars]. destruct (isspace b).
  - exists (b :: pre). cbn. f_equal. exact IH.
  - exists []. reflexivity.
Qed.

Lemma strip_all_space (s : string) :
  Forall (fun a => isspace a = true) (list_ascii_of_string s) ->
  strip s = "".
Proof.
  intros H. unfold strip. rewrite (lstrip_chars_all_space _ H). reflexivity.
Qed.

Lemma strip_first (s : string) (a : ascii) (l : list ascii) :
  list_ascii_of_string (strip s) = a :: l -> isspace a = false.
Proof.
  unfold strip. rewrite list_ascii_of_string_of_list_ascii.
  set (L := lstrip_chars (list_ascii_of_string s)).
  destruct (lstrip_chars_suffix (rev L)) as [pre Hpre].
  intros Hr. rewrite <- (rev_involutive (lstrip_chars (rev L))) in Hpre.
  rewrite Hr in Hpre.
  apply (f_equal (@rev ascii)) in Hpre.
  rewrite rev_involutive, rev_app_distr, rev_involutive in Hpre.
  cbn in Hpre. exact (lstrip_chars_head _ _ _ Hpre).
Qed.

Lemma strip_last (s : string) (l : list ascii) (b : ascii) :
  list_ascii_of_string (strip s) = (l ++ [b])%list -> isspace b = false.
Proof.
  unfold strip. rewrite list_ascii_of_string_of_list_ascii.
  intros Hr. apply (f_equal (@rev ascii)) in Hr.
  rewrite rev_involutive, rev_app_distr in Hr. cbn in Hr.
  exact (lstrip_chars_head _ _ _ Hr).
Qed.

(** X10. With enforcement on and no usable [session] cookie, an
    [Authorization] value made of whitespace only, or of ["Bearer "] followed
    by whitespace only, counts as no credential: [require_auth] raises 401
    ["Authentication required"] and makes no provider call. *)
Theorem require_auth_blank_header (c : Config) (request : Request)
    (session : option string) (h : string) :
  enforce_iam c = true ->
  truthy session = false ->
  str_truthy h = true ->
  Forall (fun a => isspace a = true)
    (list_ascii_of_string
       (if startswith h "Bearer " then slice_from 7 h else h)) ->
  require_auth c request session (Some h) =
    raise (HTTPExc 401 "Authentication required").
Proof.
  intros Hc Hs Hh Hsp.
  rewrite (require_auth_enforced c request session (Some h) Hc).
  rewrite (require_auth_token_header session h Hs Hh).
  rewrite (strip_all_space _ Hsp). reflexivity.
Qed.

(** X11. The credential that [require_auth] takes from the [Authorization]
    header neither begins nor ends with a whitespace character, while a
    [session] cookie is used as it is. *)
Theorem require_auth_header_token_trimmed (session : option string)
    (h t : string) :
  truthy session = false ->
  str_truthy h = true ->
  require_auth_token session (Some h) = Some t ->
  (forall (a : ascii) (l : list ascii),
     list_ascii_of_string t = a :: l -> isspace a = false)
  /\ (forall (l : list ascii) (b : ascii),
        list_ascii_of_string t = (l ++ [b])%list -> isspace b = false)
  /\ (forall ck : string,
        str_truthy ck = true ->
        require_auth_token (Some ck) (Some h) = Some ck).
Proof.
  intros Hs Hh Ht.
  rewrite (require_auth_token_header session h Hs Hh) in Ht.
  injection Ht as <-.
  refine (conj _ (conj _ _)).
  - intros a l. apply strip_first.
  - intros l b. apply strip_last.
  - intros ck Hck. apply require_auth_token_cookie, Hck.
Qed.

(** *** The OAuth routes *)

(** X12. [handle_oauth_callback] never raises.  Its response has status 400
    (no provider call), 401 or 307 (one provider call, the exchange of the
    token given); a cookie is set only with the status 307, and it is the
    single cookie [session] with [httponly] and [samesite] ["lax"].  It never
    calls session verification. *)
Theorem handle_oauth_callback_shape (token : option string) :
  exists response : Response,
    outcome (handle_oauth_callback token) = inr response
    /\ ((status_code response = 400
         /\ set_cookies response = []
         /\ truthy token = false
         /\ trace (handle_oauth_callback token) = [])
        \/ (exists t : string,
              token = Some t
              /\ str_truthy t = true
              /\ trace (handle_oauth_callback token) =
                   [oauth_authenticate_call t]
              /\ ((status_code response = 401
                   /\ set_cookies response = []
                   /\ exists e, oauth_authenticate t = inl e)
                  \/ (exists r : OAuthResult,
                        oauth_authenticate t = inr r
                        /\ status_code response = 307
                        /\ body response = Location "/gql"
                        /\ set_cookies response =
                             [{| key := "session";
                                 value := session_jwt r;
                                 httponly := true;
                                 samesite := "lax" |}])))).
Proof.
  destruct token as [[|a s]|].
  - eexists. split; [reflexivity|]. left. repeat split.
  - unfold handle_oauth_callback, call.
    destruct (oauth_authenticate (String a s)) as [e|r] eqn:Ho.
    + eexists. split; [reflexivity|]. right. exists (String a s).
      refine (conj eq_refl (conj eq_refl (conj eq_refl _))).
      left. repeat split. exists e. exact Ho.
    + eexists. split; [reflexivity|]. right. exists (String a s).
      refine (conj eq_refl (conj eq_refl (conj eq_refl _))).
      right. exists r. split; [exact Ho|]. repeat split.
  - eexists. split; [reflexivity|]. left. repeat split.
Qed.

(** X13. The cookie that a successful callback sets is the one the gate
    reads: a client that stores the cookies of the response and then calls
    the GraphQL route presents the session token of the exchange, and
    [require_auth] validates exactly that token. *)
Theorem callback_cookie_round_trip (c : Config) (t : string)
    (r : OAuthResult) (response : Response) :
  enforce_iam c = true ->
  str_truthy t = true ->
  oauth_authenticate t = inr r ->
  str_truthy (session_jwt r) = true ->
  outcome (handle_oauth_callback (Some t)) = inr response ->
  cookies (follow_up "/gql" response) !! "session" = Some (session_jwt r)
  /\ trace (require_auth_dep c (follow_up "/gql" response)) =
       trace (validate_session (session_jwt r))
  /\ exists rest,
       trace (require_auth_dep c (follow_up "/gql" response)) =
         authenticate_jwt_local_call (session_jwt r) :: rest.
Proof.
  intros Hc Ht Ho Hj Hresp.
  destruct t as [|a s]; [discriminate|].
  unfold handle_oauth_callback, call in Hresp. rewrite Ho in Hresp.
  cbn in Hresp. injection Hresp as <-.
  assert (Hck : cookies (follow_up "/gql"
                  (set_cookie (RedirectResponse "/gql") "session"
                     (session_jwt r) true "lax")) !! "session" =
                Some (session_jwt r)).
  { cbn. apply lookup_insert_eq. }
  assert (Htr : trace (require_auth_dep c (follow_up "/gql"
                  (set_cookie (RedirectResponse "/gql") "session"
                     (session_jwt r) true "lax"))) =
                trace (validate_session (session_jwt r))).
  { unfold require_auth_dep.
    apply (require_auth_trace c _ _ _ (session_jwt r) Hc); [|exact Hj].
    rewrite Hck. apply require_auth_token_cookie, Hj. }
  refine (conj Hck (conj Htr _)).
  rewrite Htr. apply validate_session_local_first, Hj.
Qed.




(** *** The GraphQL route behind the middleware *)

Lemma dispatch_gql_path (c : Config) (call_next : Request -> M exn Response)
    (request : Request) :
  startswith (url_path request) "/gql" = true ->
  enforce_iam c = true ->
  dispatch c call_next request = call_next request.
Proof.
  intros Hg Hc. rewrite (dispatch_gql_unreachable c call_next request Hg).
  rewrite Hc. reflexivity.
Qed.

Lemma require_auth_inv (c : Config) (request : Request)
    (session authorization : option string) :
  (exists exc : HTTPException,
     outcome (require_auth c request session authorization) = inl exc
     /\ exc_status_code exc = 401
     /\ enforce_iam c = true)
  \/ (exists uid sid : string,
        outcome (require_auth c request session authorization) =
          inr (store_session request (session_dict uid sid),
               session_dict uid sid)).
Proof.
  destruct (enforce_iam c) eqn:Hc.
  - rewrite (require_auth_enforced c request session authorization Hc).
    destruct (require_auth_token session authorization) as [[|a s]|];
      try (left; eexists; repeat split; reflexivity).
    pose proof (validate_session_inv (String a s) eq_refl) as Hinv.
    destruct (validate_session (String a s)) as [tv [e|d]]; cbn in Hinv.
    + left. eexists. repeat split; reflexivity.
    + right. destruct Hinv as [[e0 [_ H]]|[s0 [_ H]]]; [discriminate H|].
      exists (user_id s0), (session_id s0). cbn. congruence.
  - right. exists "anonymous", "none".
    unfold require_auth. rewrite Hc. reflexivity.
Qed.

(** X15. The GraphQL endpoint runs only on a request that carries an
    identity.  For a request under [/gql], the answer of the middleware
    followed by the route is either the rendering of a 401 [HTTPException],
    the endpoint not having run, or the answer of the endpoint called on the
    request with [request.state.session] set to a session whose
    [authenticated] entry is [True] and with [request.state.authenticated]
    [True]. *)
Theorem gql_endpoint_guarded (c : Config)
    (http_exception_handler : HTTPException -> Response)
    (graphql : Request -> M exn Response) (request : Request) :
  startswith (url_path request) "/gql" = true ->
  (exists exc : HTTPException,
     exc_status_code exc = 401
     /\ enforce_iam c = true
     /\ outcome (dispatch c (gql_route c http_exception_handler graphql)
                   request) =
          inr (http_exception_handler exc))
  \/ (exists (request' : Request) (info : gmap string pyval),
        st_session (state request') = Some info
        /\ st_authenticated (state request') = Some true
        /\ info !! "authenticated" = Some (VBool true)
        /\ url_path request' = url_path request
        /\ cookies request' = cookies request
        /\ headers request' = headers request
        /\ outcome (dispatch c (gql_route c http_exception_handler graphql)
                      request) =
             outcome (graphql request')).
Proof.
  intros Hg.
  rewrite (dispatch_gql_unreachable c _ request Hg).
  set (rq := if enforce_iam c then request else mark_authenticated request).
  assert (Hrq : url_path rq = url_path request
                /\ cookies rq = cookies request
                /\ headers rq = headers request).
  { unfold rq. destruct (enforce_iam c); repeat split. }
  destruct Hrq as [Hp [Hck Hh]].
  unfold gql_route, require_auth_dep.
  destruct (require_auth_inv c rq (cookies rq !! "session")
              (headers rq !! "Authorization"))
    as [[exc [Ho [H401 Hc]]]|[uid [sid Ho]]].
  - left. exists exc. refine (conj H401 (conj Hc _)).
    unfold outcome in *.
    destruct (require_auth c rq _ _) as [tv o]. cbn in Ho. subst o.
    reflexivity.
  - right. exists (store_session rq (session_dict uid sid)),
                  (session_dict uid sid).
    rewrite store_session_state. cbn [st_session st_authenticated].
    refine (conj eq_refl (conj eq_refl (conj _ (conj Hp (conj Hck
             (conj Hh _)))))).
    + apply session_dict_authenticated.
    + unfold outcome in *.
      destruct (require_auth c rq _ _) as [tv o]. cbn in Ho. subst o.
      destruct (graphql (store_session rq (session_dict uid sid)))
        as [t' r].
      reflexivity.
Qed.

(** X16. With enforcement on, a request under [/gql] with a [session] cookie
    that the local verification accepts reaches the endpoint after exactly
    one provider call: the middleware lets it through unverified and
    [require_auth] verifies it once, then the endpoint is called on the
    request carrying the identity of the local result. *)
Theorem gql_single_validation (c : Config)
    (http_exception_handler : HTTPException -> Response)
    (graphql : Request -> M exn Response) (request : Request)
    (t : string) (s : Session) :
  enforce_iam c = true ->
  startswith (url_path request) "/gql" = true ->
  cookies request !! "session" = Some t ->
  str_truthy t = true ->
  authenticate_jwt_local t = inr (Some s) ->
  dispatch c (gql_route c http_exception_handler graphql) request =
    (authenticate_jwt_local_call t ::
       trace (graphql (store_session request
                         (session_dict (user_id s) (session_id s)))),
     outcome (graphql (store_session request
                         (session_dict (user_id s) (session_id s))))).
Proof.
  intros Hc Hg Hck Ht Hl.
  rewrite (dispatch_gql_path c _ request Hg Hc).
  unfold gql_route, require_auth_dep.
  rewrite (require_auth_enforced c request _ _ Hc).
  rewrite Hck, (require_auth_token_cookie t _ Ht).
  destruct t as [|a t']; [discriminate|].
  rewrite (validate_session_local_ok _ s Ht Hl).
  destruct (graphql _) as [t'' r]. reflexivity.
Qed.

(** X17. With enforcement off, a request to the GraphQL route reaches the
    endpoint without any provider call, whatever its path and credentials,
    carrying the anonymous session: user id ["anonymous"], session id
    ["none"], authenticated. *)
Theorem gql_disabled_anonymous (c : Config)
    (http_exception_handler : HTTPException -> Response)
    (graphql : Request -> M exn Response) (request : Request) :
  enforce_iam c = false ->
  dispatch c (gql_route c http_exception_handler graphql) request =
    graphql (store_session request dummy_session)
  /\ state (store_session request dummy_session) =
       {| st_session := Some dummy_session;
          st_authenticated := Some true;
          st_user_id := Some (VStr "anonymous") |}.
Proof.
  intros Hc. split; [|apply store_session_state].
  rewrite (dispatch_disabled c _ request Hc).
  unfold gql_route, require_auth_dep, require_auth. rewrite Hc.
  cbn [negb]. unfold ret. cbv beta iota.
  change (store_session (mark_authenticated request) dummy_session)
    with (store_session request dummy_session).
  destruct (graphql (store_session request dummy_session)) as [t' r].
  reflexivity.
Qed.

(** X18. With enforcement on, a request under [/gql] from which
    [require_auth] extracts no usable credential is answered by the
    rendering of the [HTTPException] 401 ["Authentication required"]: no
    provider call is made and the endpoint does not run. *)
Theorem gql_missing_credential (c : Config)
    (http_exception_handler : HTTPException -> Response)
    (graphql : Request -> M exn Response) (request : Request) :
  enforce_iam c = true ->
  startswith (url_path request) "/gql" = true ->
  truthy (require_auth_token (cookies request !! "session")
            (headers request !! "Authorization")) = false ->
  dispatch c (gql_route c http_exception_handler graphql) request =
    ([], inr (http_exception_handler
                (HTTPExc 401 "Authentication required"))).
Proof.
  intros Hc Hg Hf.
  rewrite (dispatch_gql_path c _ request Hg Hc).
  unfold gql_route, require_auth_dep.
  rewrite (require_auth_enforced c request _ _ Hc).
  destruct (require_auth_token _ _) as [[|a s]|]; try reflexivity.
  discriminate Hf.
Qed.


(** *** The middleware with a valid credential *)

(** X21. With enforcement on and a path outside the public set, a credential
    that the local verification accepts is verified by that one call, the
    remote verification not being called; the next handler receives the
    request with the identity of the local result in its state, and its
    response is the answer. *)
Theorem dispatch_local_success (c : Config)
    (call_next : Request -> M exn Response) (request : Request)
    (t : string) (s : Session) (tr : list event) (response : Response) :
  enforce_iam c = true ->
  is_public (url_path request) = false ->
  dispatch_token request = Some t ->
  str_truthy t = true ->
  authenticate_jwt_local t = inr (Some s) ->
  call_next (store_session request
               (session_dict (user_id s) (session_id s))) =
    (tr, inr response) ->
  dispatch c call_next request =
    (authenticate_jwt_local_call t :: tr, inr response)
  /\ state (store_session request
              (session_dict (user_id s) (session_id s))) =
       {| st_session := Some (session_dict (user_id s) (session_id s));
          st_authenticated := Some true;
          st_user_id := Some (VStr (user_id s)) |}.
Proof.
  intros Hc Hp Hd Ht Hl Hn. split; [|apply store_session_state].
  rewrite (dispatch_not_public c call_next request Hc Hp).
  rewrite (dispatch_other_token call_next request t Hd Ht).
  rewrite (validate_and_continue_ok _ _ _ _ _ _ _
             (validate_session_local_ok t s Ht Hl) Hn).
  reflexivity.
Qed.

(** X22. With enforcement on and a path outside the public set, an
    exception that the next handler raises after a successful validation
    does not propagate: the answer is 401 with the body
    [{"error": "Invalid session: ..."}] carrying the handler's message.  On
    a public path the same exception leaves the middleware. *)
Theorem dispatch_masks_downstream_exception (c : Config)
    (call_next : Request -> M exn Response) (request : Request)
    (t : string) (tv tr : list event) (d : gmap string pyval) (e : exn) :
  enforce_iam c = true ->
  dispatch_token request = Some t ->
  str_truthy t = true ->
  validate_session t = (tv, inr d) ->
  (is_public (url_path request) = false ->
   call_next (store_session request d) = (tr, inl e) ->
   dispatch c call_next request =
     ((tv ++ tr)%list,
      inr (JSONResponse 401
             {["error" := VStr ("Invalid session: " +:+ exn_str e)]})))
  /\ (is_public (url_path request) = true ->
      call_next request = (tr, inl e) ->
      dispatch c call_next request = (tr, inl e)).
Proof.
  intros Hc Hd Ht Hv. split.
  - intros Hp Hn.
    rewrite (dispatch_not_public c call_next request Hc Hp).
    rewrite (dispatch_other_token call_next request t Hd Ht).
    apply (validate_and_continue_next_raises _ _ _ _ _ _ _ Hv Hn).
  - intros Hp Hn.
    rewrite (dispatch_public c call_next request Hc Hp). exact Hn.
Qed.

End Gate.

(** ** The data-store connection *)

Lemma init_supabase_set {Client : Type}
    (acreate_client : nat -> string -> string -> exn + Client)
    (s : Supabase Client) (client : Client) :
  _SBS_CNX s = Some client ->
  init_supabase acreate_client s = (s, inr tt).
Proof. intros H. unfold init_supabase. rewrite H. reflexivity. Qed.

Lemma supabase_inv_step {Client : Type}
    (acreate_client : nat -> string -> string -> exn + Client)
    (n : nat) (s : Supabase Client) :
  supabase_inv acreate_client n s ->
  supabase_inv acreate_client (S n) (fst (init_supabase acreate_client s)).
Proof.
  intros [Hall H]. unfold init_supabase.
  destruct (_SBS_CNX s) as [client|] eqn:Hs.
  - split; [exact Hall|]. cbn [fst]. rewrite Hs.
    destruct H as [Hc [k [Hk [Hok [Hbefore Hlen]]]]].
    split; [exact Hc|]. exists k.
    refine (conj _ (conj Hok (conj Hbefore Hlen))). lia.
  - destruct H as [_ [Hlen Hfail]]. rewrite Hlen.
    destruct (acreate_client n _URL _KEY) as [e|client] eqn:Hn;
      cbn [fst]; (split; [apply Forall_app; split; [exact Hall|];
                          constructor; [reflexivity | constructor] |]);
      cbn [_SBS_CNX created].
    + split; [reflexivity|]. split.
      * rewrite length_app, Hlen. cbn. lia.
      * intros j Hj.
        destruct (Nat.eq_dec j n) as [->|Hne]; [exists e; exact Hn|].
        apply Hfail. lia.
    + split; [reflexivity|]. exists n.
      refine (conj (Nat.lt_succ_diag_r n) (conj Hn (conj Hfail _))).
      rewrite length_app, Hlen. cbn. lia.
Qed.

Lemma supabase_inv_times {Client : Type}
    (acreate_client : nat -> string -> string -> exn + Client)
    (n m : nat) (s : Supabase Client) :
  supabase_inv acreate_client m s ->
  supabase_inv acreate_client (n + m)
    (init_supabase_times acreate_client n s).
Proof.
  revert m s. induction n as [|n IH]; intros m s H; [exact H|].
  cbn [init_supabase_times].
  replace (S n + m)%nat with (n + S m)%nat by lia.
  apply IH, supabase_inv_step, H.
Qed.

(** X19. Once the connection is set, [init_supabase] changes nothing and
    creates no client, however many times it is called, and [cnx_sbs] keeps
    returning the same client. *)
Theorem init_supabase_idempotent {Client : Type}
    (acreate_client : nat -> string -> string -> exn + Client)
    (s : Supabase Client) (client : Client) (n : nat) :
  _SBS_CNX s = Some client ->
  init_supabase_times acreate_client n s = s
  /\ cnx_sbs (init_supabase_times acreate_client n s) = inr client.
Proof.
  intros H.
  assert (Hn : init_supabase_times acreate_client n s = s).
  { induction n as [|n IH]; [reflexivity|].
    cbn [init_supabase_times].
    rewrite (init_supabase_set acreate_client s client H). exact IH. }
  rewrite Hn. split; [reflexivity|]. unfold cnx_sbs. rewrite H. reflexivity.
Qed.

(** X20. After any number [n] of sequential calls of [init_supabase] from
    the module as imported, every client creation was asked with the
    configured URL and key, and: either the connection is set, to the client
    of the first creation that succeeded, no creation having been asked
    after it, and [cnx_sbs] returns it; or the connection is not set, each of
    the [n] calls asked a creation that failed, and [cnx_sbs] raises
    ["Supabase not initialised"]. *)
Theorem init_supabase_first_success {Client : Type}
    (acreate_client : nat -> string -> string -> exn + Client) (n : nat) :
  let s := init_supabase_times acreate_client n supabase_init in
  Forall (fun call => call = (sbs_url cfg, sbs_key cfg)) (created s)
  /\ match _SBS_CNX s with
     | Some client =>
         cnx_sbs s = inr client
         /\ exists k : nat,
              (k < n)%nat
              /\ acreate_client k (sbs_url cfg) (sbs_key cfg) = inr client
              /\ (forall j : nat,
                    (j < k)%nat ->
                    exists e,
                      acreate_client j (sbs_url cfg) (sbs_key cfg) = inl e)
              /\ List.length (created s) = S k
     | None =>
         cnx_sbs s = inl (Exception_ "Supabase not initialised")
         /\ List.length (created s) = n
         /\ forall j : nat,
              (j < n)%nat ->
              exists e, acreate_client j (sbs_url cfg) (sbs_key cfg) = inl e
     end.
Proof.
  change (supabase_inv acreate_client n
            (init_supabase_times acreate_client n supabase_init)).
  replace n with (n + 0)%nat at 1 by lia.
  apply supabase_inv_times.
  split; [constructor|]. cbn.
  split; [reflexivity|]. split; [reflexivity|].
  intros j Hj. lia.
Qed.

(** ** Instances *)


Lemma dispatch_missing_credential_witness :
  dispatch local_ok remote_ok cfg next_ok (mk_request "*" None None None) =
    ret (JSONResponse 401 {["error" := VStr "Authentication required"]}).
Proof.
  apply (dispatch_missing_credential local_ok remote_ok cfg next_ok
           (mk_request "*" None None None)); reflexivity.
Defined.

(** C3 as stated fails on the middleware: with enforcement off, a request
    to [/auth/callback] reaches its handler with no session in its state. *)
Lemma disabled_dispatch_attaches_no_identity :
  ~ exists request' : Request,
      st_session (state request') = Some dummy_session
      /\ dispatch local_ok remote_ok cfg_off next_probe
           (mk_request "/auth/callback" None None None) =
         next_probe request'.
Proof.
  intros [request' [Hs H]].
  rewrite dispatch_disabled in H by reflexivity.
  unfold next_probe in H. rewrite Hs in H. discriminate H.
Qed.

Lemma enforcement_disabled_forwards_witness :
  dispatch local_ok remote_ok cfg_off next_ok
      (mk_request "/gql" None None None) =
    next_ok (mark_authenticated (mk_request "/gql" None None None))
  /\ require_auth local_ok remote_ok cfg_off
       (mk_request "/gql" None None None) None None =
     ret (store_session (mk_request "/gql" None None None) dummy_session,
          dummy_session).
Proof.
  destruct (enforcement_disabled_forwards local_ok remote_ok cfg_off next_ok
              (mk_request "/gql" None None None) None None eq_refl)
    as [H1 [_ [H2 _]]].
  split; [exact H1 | exact H2].
Defined.


Lemma local_first_remote_fallback_witness :
  dispatch local_none remote_ok cfg next_ok
      (mk_request "*" (Some "tok") None None) =
    ([authenticate_jwt_local_call "tok"; authenticate_call "tok"],
     inr ok_response).
Proof.
  destruct (local_first_remote_fallback local_none remote_ok cfg next_ok
              (mk_request "*" (Some "tok") None None) "tok" eq_refl)
    as [_ [_ H]].
  destruct (H {| user_id := "user-2"; session_id := "sess-2" |}
              eq_refl eq_refl)
    as [_ [_ [_ [_ [_ [Hd _]]]]]].
  apply (Hd [] ok_response); reflexivity.
Defined.

Lemma invalid_credential_rejected_witness :
  dispatch local_none remote_raises cfg next_ok
      (mk_request "*" (Some "tok") None None) =
    ([authenticate_jwt_local_call "tok"; authenticate_call "tok"],
     inr (JSONResponse 401
            {["error" :=
                VStr "Invalid session: Invalid session: session not found"]})).
Proof.
  destruct (invalid_credential_rejected local_none remote_raises cfg next_ok
              (mk_request "*" (Some "tok") None None) "tok" sample_error
              eq_refl eq_refl eq_refl eq_refl
              (or_intror (conj eq_refl eq_refl)))
    as [_ H].
  exact H.
Defined.

Lemma callback_without_token_witness :
  dispatch local_ok remote_ok cfg (callback_route oauth_ok)
      (mk_request "/auth/callback" None None None) =
    ([], inr (JSONResponse 400
                {["error" := VStr "No authentication token provided"]})).
Proof.
  destruct (callback_without_token local_ok remote_ok oauth_ok cfg
              (mk_request "/auth/callback" None None None)
              eq_refl eq_refl)
    as [_ H].
  exact H.
Defined.

Lemma callback_with_token_witness :
  dispatch local_ok remote_ok cfg (callback_route oauth_ok)
      (mk_request "/auth/callback" None None (Some "oauth-tok")) =
    ([oauth_authenticate_call "oauth-tok"],
     inr {| status_code := 307;
            body := Location "/gql";
            set_cookies := [{| key := "session";
                               value := "jwt-1";
                               httponly := true;
                               samesite := "lax" |}] |}).
Proof.
  destruct (callback_with_token local_ok remote_ok oauth_ok cfg
              (mk_request "/auth/callback" None None (Some "oauth-tok"))
              "oauth-tok" eq_refl eq_refl eq_refl)
    as [H _].
  exact (H {| session_jwt := "jwt-1" |} eq_refl).
Defined.


Lemma dispatch_gql_raises_iff_witness :
  dispatch_gql local_ok remote_ok next_ok (mk_request "/gql" None None None) =
    ([], inl AttributeError_strip).
Proof.
  destruct (dispatch_gql_raises_iff local_ok remote_ok next_ok
              (mk_request "/gql" None None None))
    as [_ [H _]].
  apply H. reflexivity.
Defined.

Lemma dispatch_no_usable_credential_witness :
  dispatch local_ok remote_ok cfg next_ok
      (mk_request "*" (Some "") (Some "Basic abc") None) =
    ret (JSONResponse 401 {["error" := VStr "Authentication required"]}).
Proof.
  apply (dispatch_no_usable_credential local_ok remote_ok cfg next_ok
           (mk_request "*" (Some "") (Some "Basic abc") None));
    try reflexivity.
  change (startswith "Basic abc" "Bearer " = false
          \/ "Basic abc" = "Bearer ").
  left. reflexivity.
Defined.

Lemma dispatch_validates_bearer_witness :
  dispatch_token (mk_request "*" None (Some "Bearer tok") None) = Some "tok".
Proof.
  destruct (dispatch_validates_bearer local_ok remote_ok cfg next_ok
              (mk_request "*" None (Some "Bearer tok") None) "Bearer tok"
              eq_refl eq_refl eq_refl eq_refl eq_refl)
    as [_ [H _]]; [discriminate|].
  exact H.
Defined.

Lemma validate_session_returns_identity_witness :
  session_dict "user-1" "sess-1" !! "authenticated" = Some (VBool true).
Proof.
  destruct (validate_session_returns_identity local_ok remote_ok "tok"
              (session_dict "user-1" "sess-1") eq_refl)
    as [_ [_ [H _]]].
  exact H.
Defined.

Lemma validate_session_failure_shape_witness :
  exn_class (Exception_ "Invalid session: session not found") = "Exception".
Proof.
  destruct (validate_session_failure_shape local_raises remote_ok "tok"
              (Exception_ "Invalid session: session not found") eq_refl)
    as [H _].
  exact H.
Defined.


Lemma require_auth_returns_attached_session_witness :
  st_authenticated
      (state (store_session (mk_request "/gql" (Some "tok") None None)
                (session_dict "user-1" "sess-1"))) =
    Some true.
Proof.
  destruct (require_auth_returns_attached_session local_ok remote_ok cfg
              (mk_request "/gql" (Some "tok") None None) (Some "tok") None
              (store_session (mk_request "/gql" (Some "tok") None None)
                 (session_dict "user-1" "sess-1"))
              (session_dict "user-1" "sess-1") eq_refl)
    as [_ [_ [H _]]].
  exact H.
Defined.

Lemma require_auth_blank_header_witness :
  require_auth local_ok remote_ok cfg (mk_request "/gql" None None None)
      None (Some "Bearer   ") =
    raise (HTTPExc 401 "Authentication required").
Proof.
  apply (require_auth_blank_header local_ok remote_ok cfg
           (mk_request "/gql" None None None) None "Bearer   ");
    try reflexivity.
  repeat constructor.
Defined.

Lemma require_auth_header_token_trimmed_witness :
  require_auth_token (Some "ck") (Some "Bearer  tok ") = Some "ck".
Proof.
  destruct (require_auth_header_token_trimmed None "Bearer  tok " "tok"
              eq_refl eq_refl eq_refl)
    as [_ [_ H]].
  exact (H "ck" eq_refl).
Defined.

Lemma callback_cookie_round_trip_witness :
  cookies (follow_up "/gql"
             (set_cookie (RedirectResponse "/gql") "session" "jwt-1" true
                "lax")) !! "session" =
    Some "jwt-1".
Proof.
  destruct (callback_cookie_round_trip local_ok remote_ok oauth_ok cfg
              "oauth-tok" {| session_jwt := "jwt-1" |}
              (set_cookie (RedirectResponse "/gql") "session" "jwt-1" true
                 "lax")
              eq_refl eq_refl eq_refl eq_refl eq_refl)
    as [H _].
  exact H.
Defined.


Lemma gql_single_validation_witness :
  dispatch local_ok remote_ok cfg
      (gql_route local_ok remote_ok cfg detail_handler next_ok)
      (mk_request "/gql" (Some "tok") None None) =
    ([authenticate_jwt_local_call "tok"], inr ok_response).
Proof.
  exact (gql_single_validation local_ok remote_ok cfg detail_handler next_ok
           (mk_request "/gql" (Some "tok") None None) "tok" sample_session
           eq_refl eq_refl eq_refl eq_refl eq_refl).
Defined.

Lemma gql_disabled_anonymous_witness :
  dispatch local_ok remote_ok cfg_off
      (gql_route local_ok remote_ok cfg_off detail_handler next_ok)
      (mk_request "/gql" None None None) =
    next_ok (store_session (mk_request "/gql" None None None) dummy_session).
Proof.
  destruct (gql_disabled_anonymous local_ok remote_ok cfg_off detail_handler
              next_ok (mk_request "/gql" None None None) eq_refl)
    as [H _].
  exact H.
Defined.

Lemma gql_missing_credential_witness :
  dispatch local_ok remote_ok cfg
      (gql_route local_ok remote_ok cfg detail_handler next_ok)
      (mk_request "/gql" None None None) =
    ([], inr (JSONResponse 401
                {["detail" := VStr "Authentication required"]})).
Proof.
  exact (gql_missing_credential local_ok remote_ok cfg detail_handler next_ok
           (mk_request "/gql" None None None) eq_refl eq_refl eq_refl).
Defined.

Lemma gql_endpoint_guarded_witness :
  (exists exc : HTTPException,
     exc_status_code exc = 401
     /\ enforce_iam cfg = true
     /\ outcome (dispatch local_ok remote_ok cfg
                   (gql_route local_ok remote_ok cfg detail_handler next_ok)
                   (mk_request "/gql" None None None)) =
          inr (detail_handler exc))
  \/ (exists (request' : Request) (info : gmap string pyval),
        st_session (state request') = Some info
        /\ st_authenticated (state request') = Some true
        /\ info !! "authenticated" = Some (VBool true)
        /\ url_path request' = url_path (mk_request "/gql" None None None)
        /\ cookies request' = cookies (mk_request "/gql" None None None)
        /\ headers request' = headers (mk_request "/gql" None None None)
        /\ outcome (dispatch local_ok remote_ok cfg
                      (gql_route local_ok remote_ok cfg detail_handler
                         next_ok)
                      (mk_request "/gql" None None None)) =
             outcome (next_ok request')).
Proof.
  exact (gql_endpoint_guarded local_ok remote_ok cfg detail_handler next_ok
           (mk_request "/gql" None None None) eq_refl).
Defined.

Lemma init_supabase_idempotent_witness :
  cnx_sbs (init_supabase_times create_second_time 3
             {| _SBS_CNX := Some 1%nat; created := [(_URL, _KEY)] |}) =
    inr 1%nat.
Proof.
  destruct (init_supabase_idempotent create_second_time
              {| _SBS_CNX := Some 1%nat; created := [(_URL, _KEY)] |}
              1%nat 3 eq_refl)
    as [_ H].
  exact H.
Defined.

Lemma dispatch_local_success_witness :
  dispatch local_ok remote_ok cfg next_ok
      (mk_request "*" (Some "tok") None None) =
    ([authenticate_jwt_local_call "tok"], inr ok_response).
Proof.
  destruct (dispatch_local_success local_ok remote_ok cfg next_ok
              (mk_request "*" (Some "tok") None None) "tok" sample_session
              [] ok_response eq_refl eq_refl eq_refl eq_refl eq_refl eq_refl)
    as [H _].
  exact H.
Defined.

Lemma dispatch_masks_downstream_exception_witness :
  dispatch local_ok remote_ok cfg next_raises
      (mk_request "*" (Some "tok") None None) =
    ([authenticate_jwt_local_call "tok"],
     inr (JSONResponse 401
            {["error" := VStr "Invalid session: session not found"]})).
Proof.
  destruct (dispatch_masks_downstream_exception local_ok remote_ok cfg
              next_raises (mk_request "*" (Some "tok") None None) "tok"
              [authenticate_jwt_local_call "tok"] []
              (session_dict "user-1" "sess-1") sample_error
              eq_refl eq_refl eq_refl eq_refl)
    as [H _].
  exact (H eq_refl eq_refl).
Defined.
